(** * RNTupleOptions: user-tunable settings for writing and reading ntuples

    A shallow embedding of [tree/ntuple/v7/inc/ROOT/RNTupleOptions.hxx]:
    the three option classes [RNTupleWriteOptions], [RNTupleWriteOptionsDaos]
    and [RNTupleReadOptions], their default member initialisers, their inline
    accessors, and the polymorphic [Clone] of the write options, which is
    modelled on an explicit object store so that ownership and aliasing can be
    stated. *)

From stdpp Require Import base numbers strings gmap.

Local Open Scope Z_scope.

(** ** Machine integers

    Fields are kept as [Z]; the conversions that the C++ code performs
    implicitly are written out. *)

Definition size_t_modulus : Z := 2 ^ 64.
Definition uint32_modulus : Z := 2 ^ 32.

Definition is_size_t (z : Z) : Prop := 0 ≤ z < size_t_modulus.
Definition is_uint32 (z : Z) : Prop := 0 ≤ z < uint32_modulus.

(** Conversion of an integer value to [std::size_t] and to [uint32_t]. *)
Definition to_size_t (z : Z) : Z := z mod size_t_modulus.
Definition to_uint32 (z : Z) : Z := z mod uint32_modulus.

(** Multiplication in [std::size_t]. *)
Definition size_t_mul (a b : Z) : Z := to_size_t (a * b).

(** ** What [<Compression.h>] provides

    The header includes [<Compression.h>] and uses three things of it: the
    enumeration of algorithms, the enumerator
    [RCompressionSetting::EDefaults::kUseGeneralPurpose], and the function
    [CompressionSettings] that packs an algorithm and a level into one [int].
    They are taken as an interface. *)

Class RCompressionSetting := {
  EValues : Type;
  kUseGeneralPurpose : Z;
  CompressionSettings : EValues → Z → Z
}.

(** ** [class RNTupleWriteOptions] *)

Module RNTupleWriteOptions.

Record t := Build {
  fCompression : Z;
  fApproxZippedClusterSize : Z;
  fMaxUnzippedClusterSize : Z;
  fApproxUnzippedPageSize : Z;
  fUseBufferedWrite : bool;
  fHasSmallClusters : bool
}.

(** [static constexpr std::uint64_t kMaxSmallClusterSize = 512 * 1024 * 1024] *)
Definition kMaxSmallClusterSize : Z := 512 * 1024 * 1024.

(** The implicit copy constructor: member-wise copy. *)
Definition copy (other : t) : t :=
  {| fCompression := fCompression other;
     fApproxZippedClusterSize := fApproxZippedClusterSize other;
     fMaxUnzippedClusterSize := fMaxUnzippedClusterSize other;
     fApproxUnzippedPageSize := fApproxUnzippedPageSize other;
     fUseBufferedWrite := fUseBufferedWrite other;
     fHasSmallClusters := fHasSmallClusters other |}.

Definition GetCompression (this : t) : Z := fCompression this.
Definition SetCompression (val : Z) (this : t) : t :=
  {| fCompression := val;
     fApproxZippedClusterSize := fApproxZippedClusterSize this;
     fMaxUnzippedClusterSize := fMaxUnzippedClusterSize this;
     fApproxUnzippedPageSize := fApproxUnzippedPageSize this;
     fUseBufferedWrite := fUseBufferedWrite this;
     fHasSmallClusters := fHasSmallClusters this |}.

Definition GetApproxZippedClusterSize (this : t) : Z := fApproxZippedClusterSize this.
Definition GetMaxUnzippedClusterSize (this : t) : Z := fMaxUnzippedClusterSize this.
Definition GetApproxUnzippedPageSize (this : t) : Z := fApproxUnzippedPageSize this.

Definition GetUseBufferedWrite (this : t) : bool := fUseBufferedWrite this.
Definition SetUseBufferedWrite (val : bool) (this : t) : t :=
  {| fCompression := fCompression this;
     fApproxZippedClusterSize := fApproxZippedClusterSize this;
     fMaxUnzippedClusterSize := fMaxUnzippedClusterSize this;
     fApproxUnzippedPageSize := fApproxUnzippedPageSize this;
     fUseBufferedWrite := val;
     fHasSmallClusters := fHasSmallClusters this |}.

Definition GetHasSmallClusters (this : t) : bool := fHasSmallClusters this.
Definition SetHasSmallClusters (val : bool) (this : t) : t :=
  {| fCompression := fCompression this;
     fApproxZippedClusterSize := fApproxZippedClusterSize this;
     fMaxUnzippedClusterSize := fMaxUnzippedClusterSize this;
     fApproxUnzippedPageSize := fApproxUnzippedPageSize this;
     fUseBufferedWrite := fUseBufferedWrite this;
     fHasSmallClusters := val |}.

Section WithCompression.
Context `{RCompressionSetting}.

(** The default member initialisers. *)
Definition ctor : t :=
  {| fCompression := kUseGeneralPurpose;
     fApproxZippedClusterSize := to_size_t (50 * 1000 * 1000);
     fMaxUnzippedClusterSize := to_size_t (512 * 1024 * 1024);
     fApproxUnzippedPageSize := to_size_t (64 * 1024);
     fUseBufferedWrite := true;
     fHasSmallClusters := false |}.

(** The overload [SetCompression(EValues algorithm, int compressionLevel)]. *)
Definition SetCompression_algorithm (algorithm : EValues) (compressionLevel : Z)
    (this : t) : t :=
  {| fCompression := CompressionSettings algorithm compressionLevel;
     fApproxZippedClusterSize := fApproxZippedClusterSize this;
     fMaxUnzippedClusterSize := fMaxUnzippedClusterSize this;
     fApproxUnzippedPageSize := fApproxUnzippedPageSize this;
     fUseBufferedWrite := fUseBufferedWrite this;
     fHasSmallClusters := fHasSmallClusters this |}.
End WithCompression.

End RNTupleWriteOptions.

(** ** [class RNTupleWriteOptionsDaos : public RNTupleWriteOptions] *)

Module RNTupleWriteOptionsDaos.

Record t := Build {
  base : RNTupleWriteOptions.t;
  fObjectClass : string;
  fMaxCageSize : Z
}.

(** The implicit copy constructor: base subobject, then the members. *)
Definition copy (other : t) : t :=
  {| base := RNTupleWriteOptions.copy (base other);
     fObjectClass := fObjectClass other;
     fMaxCageSize := fMaxCageSize other |}.

Definition GetObjectClass (this : t) : string := fObjectClass this.
Definition SetObjectClass (val : string) (this : t) : t :=
  {| base := base this; fObjectClass := val; fMaxCageSize := fMaxCageSize this |}.

Definition GetMaxCageSize (this : t) : Z := fMaxCageSize this.
Definition SetMaxCageSize (cageSz : Z) (this : t) : t :=
  {| base := base this; fObjectClass := fObjectClass this; fMaxCageSize := cageSz |}.

Section WithCompression.
Context `{RCompressionSetting}.

(** The base subobject is initialised first; [fMaxCageSize] is then
    computed from the base's page size, in [std::size_t], and narrowed to
    [uint32_t]. *)
Definition ctor : t :=
  let b := RNTupleWriteOptions.ctor in
  {| base := b;
     fObjectClass := "SX";
     fMaxCageSize :=
       to_uint32 (size_t_mul 16 (RNTupleWriteOptions.fApproxUnzippedPageSize b)) |}.
End WithCompression.

End RNTupleWriteOptionsDaos.

(** ** [class RNTupleReadOptions] *)

Module RNTupleReadOptions.

(** [enum EClusterCache { kOff, kOn, kDefault = kOn }]: two values, the
    third enumerator is another name of [kOn]. *)
Inductive EClusterCache := kOff | kOn.
Definition kDefault : EClusterCache := kOn.

(** The enumerators' integer values. *)
Definition EClusterCache_value (e : EClusterCache) : Z :=
  match e with kOff => 0 | kOn => 1 end.

Record t := Build {
  fClusterCache : EClusterCache;
  fClusterBunchSize : Z
}.

Definition ctor : t := {| fClusterCache := kDefault; fClusterBunchSize := 1 |}.

Definition GetClusterCache (this : t) : EClusterCache := fClusterCache this.
Definition SetClusterCache (val : EClusterCache) (this : t) : t :=
  {| fClusterCache := val; fClusterBunchSize := fClusterBunchSize this |}.
Definition GetClusterBunchSize (this : t) : Z := fClusterBunchSize this.
Definition SetClusterBunchSize (val : Z) (this : t) : t :=
  {| fClusterCache := fClusterCache this; fClusterBunchSize := val |}.

End RNTupleReadOptions.

(** ** Objects, owners and the virtual [Clone]

    A [std::unique_ptr<RNTupleWriteOptions>] owns an object whose dynamic type
    is one of the two write option classes. The store maps the address of
    each live object to it. *)

Inductive object :=
  | WriteOptions (o : RNTupleWriteOptions.t)
  | WriteOptionsDaos (d : RNTupleWriteOptionsDaos.t).

Abbreviation loc := positive (only parsing).
Abbreviation store := (gmap positive object) (only parsing).

(** The base subobject seen through a [RNTupleWriteOptions &]. *)
Definition as_base (obj : object) : RNTupleWriteOptions.t :=
  match obj with
  | WriteOptions o => o
  | WriteOptionsDaos d => RNTupleWriteOptionsDaos.base d
  end.

(** [dynamic_cast<RNTupleWriteOptionsDaos *>] *)
Definition dynamic_cast_Daos (obj : object) : option RNTupleWriteOptionsDaos.t :=
  match obj with
  | WriteOptions _ => None
  | WriteOptionsDaos d => Some d
  end.

(** A non-virtual member function of the base class applied to an object of
    either dynamic type: it acts on the base subobject. *)
Definition on_base (f : RNTupleWriteOptions.t → RNTupleWriteOptions.t) (obj : object)
    : object :=
  match obj with
  | WriteOptions o => WriteOptions (f o)
  | WriteOptionsDaos d =>
      WriteOptionsDaos
        {| RNTupleWriteOptionsDaos.base := f (RNTupleWriteOptionsDaos.base d);
           RNTupleWriteOptionsDaos.fObjectClass := RNTupleWriteOptionsDaos.fObjectClass d;
           RNTupleWriteOptionsDaos.fMaxCageSize := RNTupleWriteOptionsDaos.fMaxCageSize d |}
  end.

(** [std::make_unique<T>(args)]: a new object at an address that is not in use. *)
Definition make_unique (obj : object) (h : store) : loc * store :=
  let q := fresh (dom h) in (q, <[q := obj]> h).

(** Modelled from the spec: [RNTupleWriteOptions::Clone], declared in the
    header without a body; it returns a newly owned instance of the same
    dynamic type that is a member-wise copy of [this], as its override in
    [RNTupleWriteOptionsDaos] does. *)
Definition RNTupleWriteOptions_Clone (this : RNTupleWriteOptions.t) (h : store)
    : loc * store :=
  make_unique (WriteOptions (RNTupleWriteOptions.copy this)) h.

(** [RNTupleWriteOptionsDaos::Clone]:
    [return std::make_unique<RNTupleWriteOptionsDaos>( *this );] *)
Definition RNTupleWriteOptionsDaos_Clone (this : RNTupleWriteOptionsDaos.t) (h : store)
    : loc * store :=
  make_unique (WriteOptionsDaos (RNTupleWriteOptionsDaos.copy this)) h.

(** The call [p->Clone()] through a pointer to the base class: dispatch on the
    dynamic type of the object at [p]. There is no result for an address
    that holds no object. *)
Definition Clone (p : loc) (h : store) : option (loc * store) :=
  match h !! p with
  | None => None
  | Some (WriteOptions o) => Some (RNTupleWriteOptions_Clone o h)
  | Some (WriteOptionsDaos d) => Some (RNTupleWriteOptionsDaos_Clone d h)
  end.

(** A mutation of the object at [p], whatever the member function. *)
Definition mutate (p : loc) (f : object → object) (h : store) : store :=
  alter f p h.

(** ** Concrete objects

    Options on which the statements below are exercised: a page size of
    64 KiB, a cage of 1 MiB, and a store that holds one object of each
    dynamic type. *)

Definition sample_WriteOptions : RNTupleWriteOptions.t :=
  {| RNTupleWriteOptions.fCompression := 0;
     RNTupleWriteOptions.fApproxZippedClusterSize := 50000000;
     RNTupleWriteOptions.fMaxUnzippedClusterSize := 536870912;
     RNTupleWriteOptions.fApproxUnzippedPageSize := 65536;
     RNTupleWriteOptions.fUseBufferedWrite := true;
     RNTupleWriteOptions.fHasSmallClusters := false |}.

Definition sample_WriteOptionsDaos : RNTupleWriteOptionsDaos.t :=
  {| RNTupleWriteOptionsDaos.base := sample_WriteOptions;
     RNTupleWriteOptionsDaos.fObjectClass := "SX";
     RNTupleWriteOptionsDaos.fMaxCageSize := 1048576 |}.

Definition sample_store : gmap positive object :=
  <[2%positive := WriteOptionsDaos sample_WriteOptionsDaos]>
    {[1%positive := WriteOptions sample_WriteOptions]}.

(** ** The end of an owner

    Both classes have a defaulted virtual destructor, so that an owner of the
    base type that goes out of scope destroys the whole object, whatever its
    dynamic type: the address holds no object afterwards. *)

Definition destroy (p : positive) (h : gmap positive object) : gmap positive object :=
  delete p h.

(** A member function of the derived class applied to an object: it needs
    the object to be a [RNTupleWriteOptionsDaos], which a caller holding a
    base pointer gets by a cast; on an object of the base type there is
    nothing to call. *)
Definition on_daos (g : RNTupleWriteOptionsDaos.t → RNTupleWriteOptionsDaos.t)
    (obj : object) : object :=
  match obj with
  | WriteOptions o => WriteOptions o
  | WriteOptionsDaos d => WriteOptionsDaos (g d)
  end.

(** ** Sequences of calls of the inline setters

    The setters of [RNTupleWriteOptions] whose body is in the header, as
    values, so that a sequence of calls on one object is a list. *)

Section Calls.
Context `{RCompressionSetting}.

Inductive call :=
  | CallSetCompression (val : Z)
  | CallSetCompression_algorithm (algorithm : EValues) (compressionLevel : Z)
  | CallSetUseBufferedWrite (val : bool)
  | CallSetHasSmallClusters (val : bool).

Definition invoke (c : call) (this : RNTupleWriteOptions.t) : RNTupleWriteOptions.t :=
  match c with
  | CallSetCompression val => RNTupleWriteOptions.SetCompression val this
  | CallSetCompression_algorithm algorithm compressionLevel =>
      RNTupleWriteOptions.SetCompression_algorithm algorithm compressionLevel this
  | CallSetUseBufferedWrite val => RNTupleWriteOptions.SetUseBufferedWrite val this
  | CallSetHasSmallClusters val => RNTupleWriteOptions.SetHasSmallClusters val this
  end.

Fixpoint invoke_all (calls : list call) (this : RNTupleWriteOptions.t)
    : RNTupleWriteOptions.t :=
  match calls with
  | [] => this
  | c :: rest => invoke_all rest (invoke c this)
  end.

(** The argument of the last call that writes a given field, or the value the
    field had before the calls. *)
Fixpoint last_compression (calls : list call) (before : Z) : Z :=
  match calls with
  | [] => before
  | CallSetCompression val :: rest => last_compression rest val
  | CallSetCompression_algorithm algorithm compressionLevel :: rest =>
      last_compression rest (CompressionSettings algorithm compressionLevel)
  | _ :: rest => last_compression rest before
  end.

Fixpoint last_use_buffered_write (calls : list call) (before : bool) : bool :=
  match calls with
  | [] => before
  | CallSetUseBufferedWrite val :: rest => last_use_buffered_write rest val
  | _ :: rest => last_use_buffered_write rest before
  end.

Fixpoint last_has_small_clusters (calls : list call) (before : bool) : bool :=
  match calls with
  | [] => before
  | CallSetHasSmallClusters val :: rest => last_has_small_clusters rest val
  | _ :: rest => last_has_small_clusters rest before
  end.

End Calls.

(** * Properties *)

(** ** Basic facts used below *)

Lemma copy_RNTupleWriteOptions (o : RNTupleWriteOptions.t) :
  RNTupleWriteOptions.copy o = o.
Proof. by destruct o. Qed.

Lemma copy_RNTupleWriteOptionsDaos (d : RNTupleWriteOptionsDaos.t) :
  RNTupleWriteOptionsDaos.copy d = d.
Proof.
  destruct d as [b c m]. unfold RNTupleWriteOptionsDaos.copy; simpl.
  by rewrite copy_RNTupleWriteOptions.
Qed.

Lemma to_size_t_small (z : Z) : is_size_t z → to_size_t z = z.
Proof. intros Hz. apply Z.mod_small, Hz. Qed.

Lemma to_uint32_small (z : Z) : is_uint32 z → to_uint32 z = z.
Proof. intros Hz. apply Z.mod_small, Hz. Qed.

(** The cage size of the default member initialiser does not wrap as long as
    sixteen pages fit in 32 bits. *)
Lemma MaxCageSize_initialiser (page : Z) :
  0 ≤ page < 2 ^ 28 → to_uint32 (size_t_mul 16 page) = 16 * page.
Proof.
  intros Hp. unfold size_t_mul.
  rewrite to_size_t_small by (unfold is_size_t, size_t_modulus; lia).
  apply to_uint32_small. unfold is_uint32, uint32_modulus. lia.
Qed.

(** A member function of the base class keeps the dynamic type and the
    members of the derived class. *)
Lemma on_base_dynamic_cast (f : RNTupleWriteOptions.t → RNTupleWriteOptions.t)
    (obj : object) :
  dynamic_cast_Daos (on_base f obj)
  = (λ d, {| RNTupleWriteOptionsDaos.base := f (RNTupleWriteOptionsDaos.base d);
             RNTupleWriteOptionsDaos.fObjectClass := RNTupleWriteOptionsDaos.fObjectClass d;
             RNTupleWriteOptionsDaos.fMaxCageSize := RNTupleWriteOptionsDaos.fMaxCageSize d |})
    <$> dynamic_cast_Daos obj.
Proof. by destruct obj. Qed.

(** ** Defaults and the compression setting *)

Section OnCompression.
Context `{RCompressionSetting}.

(** C1: a default-constructed [RNTupleWriteOptions] has the documented
    defaults: the compression is the general purpose default, the
    approximate zipped cluster size is 50,000,000, the maximum unzipped
    cluster size is 512 MiB, the approximate unzipped page size is 64 KiB,
    buffered writing is on and small clusters are off. *)
Theorem RNTupleWriteOptions_defaults :
  let o := RNTupleWriteOptions.ctor in
  RNTupleWriteOptions.GetCompression o = kUseGeneralPurpose
  ∧ RNTupleWriteOptions.GetApproxZippedClusterSize o = 50000000
  ∧ RNTupleWriteOptions.GetMaxUnzippedClusterSize o = 512 * 1024 * 1024
  ∧ RNTupleWriteOptions.GetApproxUnzippedPageSize o = 64 * 1024
  ∧ RNTupleWriteOptions.GetUseBufferedWrite o = true
  ∧ RNTupleWriteOptions.GetHasSmallClusters o = false.
Proof. cbv zeta. repeat split; reflexivity. Qed.

(** C6: a default-constructed [RNTupleWriteOptionsDaos] has the object class
    "SX" and a maximum cage size of 16 times the default approximate
    unzipped page size, which is 1 MiB. *)
Theorem RNTupleWriteOptionsDaos_defaults :
  let d := RNTupleWriteOptionsDaos.ctor in
  RNTupleWriteOptionsDaos.GetObjectClass d = "SX"%string
  ∧ RNTupleWriteOptionsDaos.GetMaxCageSize d
    = 16 * RNTupleWriteOptions.GetApproxUnzippedPageSize RNTupleWriteOptions.ctor
  ∧ RNTupleWriteOptionsDaos.GetMaxCageSize d = 16 * (64 * 1024)
  ∧ RNTupleWriteOptionsDaos.GetMaxCageSize d = 1024 * 1024
  ∧ RNTupleWriteOptionsDaos.base d = RNTupleWriteOptions.ctor.
Proof. cbv zeta. repeat split; reflexivity. Qed.

(** C9: the compression has two setters. [SetCompression(int)] stores the
    packed setting as it is given, and [SetCompression(algorithm, level)]
    stores what [CompressionSettings] composes from the algorithm and the
    level, so that it is [SetCompression(int)] at the composed value;
    [GetCompression] returns the stored value in both cases, and no other
    field changes: setting the former compression again gives back the
    former object. *)
Theorem SetCompression_GetCompression (this : RNTupleWriteOptions.t) :
  (∀ val : Z,
      RNTupleWriteOptions.GetCompression (RNTupleWriteOptions.SetCompression val this) = val
      ∧ RNTupleWriteOptions.SetCompression (RNTupleWriteOptions.GetCompression this)
          (RNTupleWriteOptions.SetCompression val this)
        = this)
  ∧ (∀ (algorithm : EValues) (compressionLevel : Z),
      RNTupleWriteOptions.GetCompression
        (RNTupleWriteOptions.SetCompression_algorithm algorithm compressionLevel this)
      = CompressionSettings algorithm compressionLevel
      ∧ RNTupleWriteOptions.SetCompression_algorithm algorithm compressionLevel this
        = RNTupleWriteOptions.SetCompression
            (CompressionSettings algorithm compressionLevel) this).
Proof. destruct this. split; intros; split; reflexivity. Qed.
End OnCompression.

(** C8: a default-constructed [RNTupleReadOptions] has the cluster cache on,
    which is the enumeration's default, and a cluster bunch size of 1; and on
    any read options, setting the cluster cache to off and reading it back
    gives off. *)
Theorem RNTupleReadOptions_defaults_and_off :
  RNTupleReadOptions.GetClusterCache RNTupleReadOptions.ctor = RNTupleReadOptions.kOn
  ∧ RNTupleReadOptions.kDefault = RNTupleReadOptions.kOn
  ∧ RNTupleReadOptions.EClusterCache_value RNTupleReadOptions.kDefault = 1
  ∧ RNTupleReadOptions.GetClusterBunchSize RNTupleReadOptions.ctor = 1
  ∧ ∀ this : RNTupleReadOptions.t,
      RNTupleReadOptions.GetClusterCache
        (RNTupleReadOptions.SetClusterCache RNTupleReadOptions.kOff this)
      = RNTupleReadOptions.kOff
      ∧ RNTupleReadOptions.GetClusterBunchSize
          (RNTupleReadOptions.SetClusterCache RNTupleReadOptions.kOff this)
        = RNTupleReadOptions.GetClusterBunchSize this.
Proof. repeat split; reflexivity. Qed.

(** ** The setters of the DAOS options *)

(** C7: [SetMaxCageSize] takes every 32-bit unsigned value, 0 and values
    below the approximate unzipped page size included: there is no condition
    on the value, no other field changes, and [GetMaxCageSize] then returns
    the value that was set. *)
Theorem SetMaxCageSize_any (this : RNTupleWriteOptionsDaos.t) (cageSz : Z) :
  is_uint32 cageSz →
  let d := RNTupleWriteOptionsDaos.SetMaxCageSize cageSz this in
  RNTupleWriteOptionsDaos.GetMaxCageSize d = cageSz
  ∧ is_uint32 (RNTupleWriteOptionsDaos.GetMaxCageSize d)
  ∧ RNTupleWriteOptionsDaos.GetObjectClass d = RNTupleWriteOptionsDaos.GetObjectClass this
  ∧ RNTupleWriteOptionsDaos.base d = RNTupleWriteOptionsDaos.base this.
Proof. intros Hc. cbv zeta. repeat split; try reflexivity; apply Hc. Qed.

Lemma SetMaxCageSize_zero :
  is_uint32 0
  ∧ 0 < RNTupleWriteOptions.GetApproxUnzippedPageSize
          (RNTupleWriteOptionsDaos.base sample_WriteOptionsDaos)
  ∧ let d := RNTupleWriteOptionsDaos.SetMaxCageSize 0 sample_WriteOptionsDaos in
    RNTupleWriteOptionsDaos.GetMaxCageSize d = 0
    ∧ is_uint32 (RNTupleWriteOptionsDaos.GetMaxCageSize d)
    ∧ RNTupleWriteOptionsDaos.GetObjectClass d
      = RNTupleWriteOptionsDaos.GetObjectClass sample_WriteOptionsDaos
    ∧ RNTupleWriteOptionsDaos.base d = RNTupleWriteOptionsDaos.base sample_WriteOptionsDaos.
Proof.
  split; [ | split ].
  - unfold is_uint32, uint32_modulus. lia.
  - reflexivity.
  - apply (SetMaxCageSize_any sample_WriteOptionsDaos 0).
    unfold is_uint32, uint32_modulus. lia.
Defined.

(** C10: [SetObjectClass] validates nothing: for every string, the empty
    string included, it stores the string as it is, [GetObjectClass] then
    returns that string, and no other field changes. *)
Theorem SetObjectClass_any (this : RNTupleWriteOptionsDaos.t) (val : string) :
  let d := RNTupleWriteOptionsDaos.SetObjectClass val this in
  RNTupleWriteOptionsDaos.GetObjectClass d = val
  ∧ RNTupleWriteOptionsDaos.GetObjectClass
      (RNTupleWriteOptionsDaos.SetObjectClass EmptyString this) = EmptyString
  ∧ RNTupleWriteOptionsDaos.GetMaxCageSize d = RNTupleWriteOptionsDaos.GetMaxCageSize this
  ∧ RNTupleWriteOptionsDaos.base d = RNTupleWriteOptionsDaos.base this.
Proof. cbv zeta. repeat split; reflexivity. Qed.

(** ** Ownership of a clone *)

Lemma make_unique_fresh (obj : object) (h : gmap positive object) :
  h !! (make_unique obj h).1 = None.
Proof. unfold make_unique; simpl. apply not_elem_of_dom, is_fresh. Qed.

Lemma make_unique_lookup (obj : object) (h : gmap positive object) :
  (make_unique obj h).2 !! (make_unique obj h).1 = Some obj.
Proof. unfold make_unique; simpl. apply lookup_insert_eq. Qed.

Lemma make_unique_frame (obj : object) (h : gmap positive object) (p : positive) :
  p ≠ (make_unique obj h).1 → (make_unique obj h).2 !! p = h !! p.
Proof. unfold make_unique; simpl. intros Hp. by apply lookup_insert_ne. Qed.

Lemma make_unique_live (obj x : object) (h : gmap positive object) (p : positive) :
  h !! p = Some x → (make_unique obj h).1 ≠ p.
Proof.
  intros Hp Heq. pose proof (make_unique_fresh obj h) as Hf.
  rewrite Heq in Hf. congruence.
Qed.

Lemma mutate_frame (f : object → object) (h : gmap positive object) (p q : positive) :
  p ≠ q → mutate q f h !! p = h !! p.
Proof. intros Hpq. unfold mutate. by apply lookup_alter_ne. Qed.

(** What every call of [make_unique] on a store with a live object at [p]
    gives: a new address, the new object there, and everything else as it
    was, also after any later mutation of either object. *)
Lemma make_unique_owned (obj x : object) (h : gmap positive object) (p : positive) :
  h !! p = Some x →
  let q := (make_unique obj h).1 in
  let h' := (make_unique obj h).2 in
  q ≠ p ∧ h !! q = None ∧ h' !! p = Some x ∧ h' !! q = Some obj
  ∧ (∀ r, r ≠ q → h' !! r = h !! r)
  ∧ (∀ f, mutate q f h' !! p = Some x)
  ∧ (∀ f, mutate p f h' !! q = Some obj).
Proof.
  intros Hp q h'.
  assert (Hqp : q ≠ p) by (eapply make_unique_live; eauto).
  assert (Hp' : h' !! p = Some x).
  { subst h'. rewrite make_unique_frame; [done | by apply not_eq_sym]. }
  assert (Hq' : h' !! q = Some obj) by apply make_unique_lookup.
  repeat split.
  - exact Hqp.
  - apply make_unique_fresh.
  - exact Hp'.
  - exact Hq'.
  - intros r Hr. by apply make_unique_frame.
  - intros f. rewrite mutate_frame; [done | by apply not_eq_sym].
  - intros f. by rewrite mutate_frame.
Qed.

(** C3: [Clone] on an object whose dynamic type is [RNTupleWriteOptions]
    returns a new object of that type that is equal to the original in all
    six fields; the original is untouched, and whatever is later done to the
    clone does not change the original, nor the other way round. *)
Theorem Clone_RNTupleWriteOptions (h : gmap positive object) (p : positive)
    (o : RNTupleWriteOptions.t) :
  h !! p = Some (WriteOptions o) →
  ∃ (q : positive) (h' : gmap positive object) (o' : RNTupleWriteOptions.t),
    Clone p h = Some (q, h')
    ∧ q ≠ p ∧ h !! q = None
    ∧ h' !! p = Some (WriteOptions o)
    ∧ h' !! q = Some (WriteOptions o')
    ∧ (RNTupleWriteOptions.GetCompression o' = RNTupleWriteOptions.GetCompression o
       ∧ RNTupleWriteOptions.GetApproxZippedClusterSize o'
         = RNTupleWriteOptions.GetApproxZippedClusterSize o
       ∧ RNTupleWriteOptions.GetMaxUnzippedClusterSize o'
         = RNTupleWriteOptions.GetMaxUnzippedClusterSize o
       ∧ RNTupleWriteOptions.GetApproxUnzippedPageSize o'
         = RNTupleWriteOptions.GetApproxUnzippedPageSize o
       ∧ RNTupleWriteOptions.GetUseBufferedWrite o' = RNTupleWriteOptions.GetUseBufferedWrite o
       ∧ RNTupleWriteOptions.GetHasSmallClusters o' = RNTupleWriteOptions.GetHasSmallClusters o)
    ∧ (∀ r, r ≠ q → h' !! r = h !! r)
    ∧ (∀ f : object → object, mutate q f h' !! p = Some (WriteOptions o))
    ∧ (∀ f : object → object, mutate p f h' !! q = Some (WriteOptions o')).
Proof.
  intros Hp.
  set (obj := WriteOptions (RNTupleWriteOptions.copy o)).
  destruct (make_unique_owned obj _ h p Hp) as (Hqp & Hq & Hp' & Hq' & Hfr & Hm1 & Hm2).
  exists (make_unique obj h).1, (make_unique obj h).2, (RNTupleWriteOptions.copy o).
  split.
  { unfold Clone. rewrite Hp. unfold RNTupleWriteOptions_Clone. fold obj.
    by destruct (make_unique obj h). }
  repeat split; try done.
Qed.

(** C2: [Clone] called through a base pointer on an object whose dynamic
    type is [RNTupleWriteOptionsDaos] returns a new object whose dynamic type
    is [RNTupleWriteOptionsDaos] again; seen through the derived interface it
    has the object class, the maximum cage size and the inherited fields of
    the original, and it is owned apart from the original. *)
Theorem Clone_RNTupleWriteOptionsDaos (h : gmap positive object) (p : positive)
    (d : RNTupleWriteOptionsDaos.t) :
  h !! p = Some (WriteOptionsDaos d) →
  ∃ (q : positive) (h' : gmap positive object) (d' : RNTupleWriteOptionsDaos.t),
    Clone p h = Some (q, h')
    ∧ q ≠ p ∧ h !! q = None
    ∧ h' !! p = Some (WriteOptionsDaos d)
    ∧ h' !! q ≫= dynamic_cast_Daos = Some d'
    ∧ RNTupleWriteOptionsDaos.GetObjectClass d' = RNTupleWriteOptionsDaos.GetObjectClass d
    ∧ RNTupleWriteOptionsDaos.GetMaxCageSize d' = RNTupleWriteOptionsDaos.GetMaxCageSize d
    ∧ as_base <$> h' !! q = Some (RNTupleWriteOptionsDaos.base d)
    ∧ (∀ f : object → object, mutate q f h' !! p = Some (WriteOptionsDaos d))
    ∧ (∀ f : object → object, mutate p f h' !! q ≫= dynamic_cast_Daos = Some d').
Proof.
  intros Hp.
  set (obj := WriteOptionsDaos (RNTupleWriteOptionsDaos.copy d)).
  destruct (make_unique_owned obj _ h p Hp) as (Hqp & Hq & Hp' & Hq' & Hfr & Hm1 & Hm2).
  exists (make_unique obj h).1, (make_unique obj h).2, (RNTupleWriteOptionsDaos.copy d).
  split.
  { unfold Clone. rewrite Hp. unfold RNTupleWriteOptionsDaos_Clone. fold obj.
    by destruct (make_unique obj h). }
  repeat split; try done.
  - by rewrite Hq'.
  - rewrite Hq'. simpl. by rewrite copy_RNTupleWriteOptions.
  - intros f. by rewrite Hm2.
Qed.

Lemma Clone_RNTupleWriteOptions_sample :
  sample_store !! 1%positive = Some (WriteOptions sample_WriteOptions)
  ∧ ∃ (q : positive) (h' : gmap positive object) (o' : RNTupleWriteOptions.t),
      Clone 1 sample_store = Some (q, h')
      ∧ q ≠ 1%positive ∧ sample_store !! q = None
      ∧ h' !! 1%positive = Some (WriteOptions sample_WriteOptions)
      ∧ h' !! q = Some (WriteOptions o')
      ∧ (RNTupleWriteOptions.GetCompression o'
         = RNTupleWriteOptions.GetCompression sample_WriteOptions
         ∧ RNTupleWriteOptions.GetApproxZippedClusterSize o'
           = RNTupleWriteOptions.GetApproxZippedClusterSize sample_WriteOptions
         ∧ RNTupleWriteOptions.GetMaxUnzippedClusterSize o'
           = RNTupleWriteOptions.GetMaxUnzippedClusterSize sample_WriteOptions
         ∧ RNTupleWriteOptions.GetApproxUnzippedPageSize o'
           = RNTupleWriteOptions.GetApproxUnzippedPageSize sample_WriteOptions
         ∧ RNTupleWriteOptions.GetUseBufferedWrite o'
           = RNTupleWriteOptions.GetUseBufferedWrite sample_WriteOptions
         ∧ RNTupleWriteOptions.GetHasSmallClusters o'
           = RNTupleWriteOptions.GetHasSmallClusters sample_WriteOptions)
      ∧ (∀ r, r ≠ q → h' !! r = sample_store !! r)
      ∧ (∀ f : object → object,
            mutate q f h' !! 1%positive = Some (WriteOptions sample_WriteOptions))
      ∧ (∀ f : object → object, mutate 1 f h' !! q = Some (WriteOptions o')).
Proof.
  split; [ reflexivity | ].
  apply (Clone_RNTupleWriteOptions sample_store 1 sample_WriteOptions). reflexivity.
Defined.

Lemma Clone_RNTupleWriteOptionsDaos_sample :
  sample_store !! 2%positive = Some (WriteOptionsDaos sample_WriteOptionsDaos)
  ∧ ∃ (q : positive) (h' : gmap positive object) (d' : RNTupleWriteOptionsDaos.t),
      Clone 2 sample_store = Some (q, h')
      ∧ q ≠ 2%positive ∧ sample_store !! q = None
      ∧ h' !! 2%positive = Some (WriteOptionsDaos sample_WriteOptionsDaos)
      ∧ h' !! q ≫= dynamic_cast_Daos = Some d'
      ∧ RNTupleWriteOptionsDaos.GetObjectClass d'
        = RNTupleWriteOptionsDaos.GetObjectClass sample_WriteOptionsDaos
      ∧ RNTupleWriteOptionsDaos.GetMaxCageSize d'
        = RNTupleWriteOptionsDaos.GetMaxCageSize sample_WriteOptionsDaos
      ∧ as_base <$> h' !! q = Some (RNTupleWriteOptionsDaos.base sample_WriteOptionsDaos)
      ∧ (∀ f : object → object,
            mutate q f h' !! 2%positive = Some (WriteOptionsDaos sample_WriteOptionsDaos))
      ∧ (∀ f : object → object, mutate 2 f h' !! q ≫= dynamic_cast_Daos = Some d').
Proof.
  split; [ reflexivity | ].
  apply (Clone_RNTupleWriteOptionsDaos sample_store 2 sample_WriteOptionsDaos). reflexivity.
Defined.

(** ** Small clusters and the maximum cluster size *)

(** [SetHasSmallClusters] stores its argument without looking at the maximum
    unzipped cluster size: small clusters can be switched on whatever that
    size is, above [kMaxSmallClusterSize] too, and the two getters then
    return the flag and the unchanged size. *)
Lemma SetHasSmallClusters_unchecked (this : RNTupleWriteOptions.t) :
  RNTupleWriteOptions.GetHasSmallClusters
    (RNTupleWriteOptions.SetHasSmallClusters true this) = true
  ∧ RNTupleWriteOptions.GetMaxUnzippedClusterSize
      (RNTupleWriteOptions.SetHasSmallClusters true this)
    = RNTupleWriteOptions.GetMaxUnzippedClusterSize this.
Proof. by split. Qed.


(** * Further properties of the header *)

(** ** The inline setters of [RNTupleWriteOptions] *)


Section CallSequences.
Context `{RCompressionSetting}.

Lemma invoke_sizes (c : call) (this : RNTupleWriteOptions.t) :
  RNTupleWriteOptions.GetApproxUnzippedPageSize (invoke c this)
  = RNTupleWriteOptions.GetApproxUnzippedPageSize this
  ∧ RNTupleWriteOptions.GetApproxZippedClusterSize (invoke c this)
    = RNTupleWriteOptions.GetApproxZippedClusterSize this
  ∧ RNTupleWriteOptions.GetMaxUnzippedClusterSize (invoke c this)
    = RNTupleWriteOptions.GetMaxUnzippedClusterSize this.
Proof. by destruct c. Qed.

Lemma invoke_all_sizes (calls : list call) (this : RNTupleWriteOptions.t) :
  RNTupleWriteOptions.GetApproxUnzippedPageSize (invoke_all calls this)
  = RNTupleWriteOptions.GetApproxUnzippedPageSize this
  ∧ RNTupleWriteOptions.GetApproxZippedClusterSize (invoke_all calls this)
    = RNTupleWriteOptions.GetApproxZippedClusterSize this
  ∧ RNTupleWriteOptions.GetMaxUnzippedClusterSize (invoke_all calls this)
    = RNTupleWriteOptions.GetMaxUnzippedClusterSize this.
Proof.
  revert this. induction calls as [ | c rest IH ]; intros this; [ done | ].
  simpl. destruct (IH (invoke c this)) as (-> & -> & ->).
  apply invoke_sizes.
Qed.

(** X2: no sequence of calls of the inline setters changes any of the three
    sizes, which are written by their own setters only. On a
    default-constructed object the sizes therefore stay positive, ordered
    (page, then zipped cluster, then maximum unzipped cluster) and within
    [kMaxSmallClusterSize], whatever inline setters are called and in
    whatever order, small clusters switched on included. *)
Theorem inline_setters_keep_sizes (calls : list call) :
  (∀ this : RNTupleWriteOptions.t,
      RNTupleWriteOptions.GetApproxUnzippedPageSize (invoke_all calls this)
      = RNTupleWriteOptions.GetApproxUnzippedPageSize this
      ∧ RNTupleWriteOptions.GetApproxZippedClusterSize (invoke_all calls this)
        = RNTupleWriteOptions.GetApproxZippedClusterSize this
      ∧ RNTupleWriteOptions.GetMaxUnzippedClusterSize (invoke_all calls this)
        = RNTupleWriteOptions.GetMaxUnzippedClusterSize this)
  ∧ (let o := invoke_all calls RNTupleWriteOptions.ctor in
     0 < RNTupleWriteOptions.GetApproxUnzippedPageSize o
     ∧ RNTupleWriteOptions.GetApproxUnzippedPageSize o
       ≤ RNTupleWriteOptions.GetApproxZippedClusterSize o
     ∧ RNTupleWriteOptions.GetApproxZippedClusterSize o
       ≤ RNTupleWriteOptions.GetMaxUnzippedClusterSize o
     ∧ RNTupleWriteOptions.GetMaxUnzippedClusterSize o
       ≤ RNTupleWriteOptions.kMaxSmallClusterSize).
Proof.
  split; [ apply invoke_all_sizes | ]. cbv zeta.
  destruct (invoke_all_sizes calls RNTupleWriteOptions.ctor) as (-> & -> & ->).
  repeat split; by vm_compute.
Qed.

(** X3: after a sequence of calls of the inline setters, each of the three
    getters returns the argument of the last call that wrote its field, the
    composed setting for the two-argument [SetCompression], or the former
    value when no call in the sequence wrote it. *)
Theorem inline_setters_last_write (calls : list call) (this : RNTupleWriteOptions.t) :
  RNTupleWriteOptions.GetCompression (invoke_all calls this)
  = last_compression calls (RNTupleWriteOptions.GetCompression this)
  ∧ RNTupleWriteOptions.GetUseBufferedWrite (invoke_all calls this)
    = last_use_buffered_write calls (RNTupleWriteOptions.GetUseBufferedWrite this)
  ∧ RNTupleWriteOptions.GetHasSmallClusters (invoke_all calls this)
    = last_has_small_clusters calls (RNTupleWriteOptions.GetHasSmallClusters this).
Proof.
  revert this. induction calls as [ | c rest IH ]; intros this; [ done | ].
  simpl. destruct (IH (invoke c this)) as (-> & -> & ->).
  by destruct c.
Qed.

End CallSequences.

(** ** The setters of the other two classes *)


(** X5: the two setters of [RNTupleReadOptions] store any value for their
    getter to return, touch no other field, overwrite an earlier call, change
    nothing when given the current value, and can be called in either
    order. *)
Theorem read_setters_compose (this : RNTupleReadOptions.t) :
  (∀ val : RNTupleReadOptions.EClusterCache,
      RNTupleReadOptions.GetClusterCache (RNTupleReadOptions.SetClusterCache val this) = val
      ∧ RNTupleReadOptions.GetClusterBunchSize (RNTupleReadOptions.SetClusterCache val this)
        = RNTupleReadOptions.GetClusterBunchSize this)
  ∧ (∀ val : Z,
      RNTupleReadOptions.GetClusterBunchSize (RNTupleReadOptions.SetClusterBunchSize val this)
      = val
      ∧ RNTupleReadOptions.GetClusterCache (RNTupleReadOptions.SetClusterBunchSize val this)
        = RNTupleReadOptions.GetClusterCache this)
  ∧ (∀ e1 e2 : RNTupleReadOptions.EClusterCache,
      RNTupleReadOptions.SetClusterCache e2 (RNTupleReadOptions.SetClusterCache e1 this)
      = RNTupleReadOptions.SetClusterCache e2 this)
  ∧ (∀ n1 n2 : Z,
      RNTupleReadOptions.SetClusterBunchSize n2 (RNTupleReadOptions.SetClusterBunchSize n1 this)
      = RNTupleReadOptions.SetClusterBunchSize n2 this)
  ∧ RNTupleReadOptions.SetClusterCache (RNTupleReadOptions.GetClusterCache this) this = this
  ∧ RNTupleReadOptions.SetClusterBunchSize (RNTupleReadOptions.GetClusterBunchSize this) this
    = this
  ∧ (∀ (e : RNTupleReadOptions.EClusterCache) (n : Z),
      RNTupleReadOptions.SetClusterCache e (RNTupleReadOptions.SetClusterBunchSize n this)
      = RNTupleReadOptions.SetClusterBunchSize n (RNTupleReadOptions.SetClusterCache e this)).
Proof. destruct this. repeat split. Qed.

(** X6: [kMaxSmallClusterSize] is the size in bytes of as many one-bit
    values as a 32-bit index can address: eight times the constant is 2^32,
    so that the last bit of a cluster of that size has an index that fits in
    32 bits and the bit after it has not. *)
Theorem kMaxSmallClusterSize_bits :
  8 * RNTupleWriteOptions.kMaxSmallClusterSize = 2 ^ 32
  ∧ is_uint32 (8 * RNTupleWriteOptions.kMaxSmallClusterSize - 1)
  ∧ ¬ is_uint32 (8 * RNTupleWriteOptions.kMaxSmallClusterSize).
Proof.
  unfold is_uint32, uint32_modulus. repeat split; try by vm_compute.
  intros [_ Hlt]. by vm_compute in Hlt.
Qed.

(** ** Objects in the store *)

Lemma Clone_make_unique (h : gmap positive object) (p : positive) (obj : object) :
  h !! p = Some obj → Clone p h = Some (make_unique obj h).
Proof.
  intros Hp. unfold Clone. rewrite Hp. destruct obj as [o | d].
  - unfold RNTupleWriteOptions_Clone. by rewrite copy_RNTupleWriteOptions.
  - unfold RNTupleWriteOptionsDaos_Clone. by rewrite copy_RNTupleWriteOptionsDaos.
Qed.

Lemma Clone_daos_insert (h : gmap positive object) (p : positive)
    (d : RNTupleWriteOptionsDaos.t) :
  h !! p = Some (WriteOptionsDaos d) →
  ∃ q : positive,
    Clone p h = Some (q, <[q := WriteOptionsDaos d]> h) ∧ h !! q = None.
Proof.
  intros Hp. exists (fresh (dom h)).
  split; [ by rewrite (Clone_make_unique h p _ Hp) | ].
  apply not_elem_of_dom, is_fresh.
Qed.

(** X8: [Clone] on a [RNTupleWriteOptionsDaos] adds exactly one object to the
    store: the new store is the old one with the copy at an address that was
    not in use, and it holds one object more. *)
Theorem Clone_extends_store (h : gmap positive object) (p : positive)
    (d : RNTupleWriteOptionsDaos.t) :
  h !! p = Some (WriteOptionsDaos d) →
  ∃ q : positive,
    Clone p h = Some (q, <[q := WriteOptionsDaos d]> h)
    ∧ (q ∉ dom h)
    ∧ dom (<[q := WriteOptionsDaos d]> h) = {[q]} ∪ dom h
    ∧ size (<[q := WriteOptionsDaos d]> h) = S (size h).
Proof.
  intros Hp. destruct (Clone_daos_insert h p d Hp) as (q & Hc & Hq).
  exists q. split; [ exact Hc | ].
  split; [ by apply not_elem_of_dom | ].
  split; [ apply dom_insert_L | by apply map_size_insert_None ].
Qed.

Lemma Clone_extends_store_sample :
  sample_store !! 2%positive = Some (WriteOptionsDaos sample_WriteOptionsDaos)
  ∧ ∃ q : positive,
      Clone 2 sample_store
      = Some (q, <[q := WriteOptionsDaos sample_WriteOptionsDaos]> sample_store)
      ∧ (q ∉ dom sample_store)
      ∧ dom (<[q := WriteOptionsDaos sample_WriteOptionsDaos]> sample_store)
        = {[q]} ∪ dom sample_store
      ∧ size (<[q := WriteOptionsDaos sample_WriteOptionsDaos]> sample_store)
        = S (size sample_store).
Proof.
  split; [ reflexivity | ].
  apply (Clone_extends_store sample_store 2 sample_WriteOptionsDaos). reflexivity.
Defined.

(** X9: the owner of a clone and the owner of the original end apart from
    each other. Destroying the clone gives back the store as it was before
    [Clone]; destroying the original leaves the clone in place with all its
    values. *)
Theorem Clone_destroy (h : gmap positive object) (p : positive)
    (d : RNTupleWriteOptionsDaos.t) :
  h !! p = Some (WriteOptionsDaos d) →
  ∃ (q : positive) (h' : gmap positive object),
    Clone p h = Some (q, h')
    ∧ destroy q h' = h
    ∧ destroy p h' !! p = None
    ∧ destroy p h' !! q = Some (WriteOptionsDaos d).
Proof.
  intros Hp.
  destruct (Clone_daos_insert h p d Hp) as (q & Hc & Hq).
  assert (Hqp : q ≠ p) by (intros ->; congruence).
  exists q, (<[q := WriteOptionsDaos d]> h). unfold destroy.
  split; [ exact Hc | ]. split; [ | split ].
  - rewrite delete_insert_eq. by apply delete_id.
  - apply lookup_delete_eq.
  - rewrite lookup_delete_ne by (by apply not_eq_sym). apply lookup_insert_eq.
Qed.

Lemma Clone_destroy_sample :
  sample_store !! 2%positive = Some (WriteOptionsDaos sample_WriteOptionsDaos)
  ∧ ∃ (q : positive) (h' : gmap positive object),
      Clone 2 sample_store = Some (q, h')
      ∧ destroy q h' = sample_store
      ∧ destroy 2 h' !! 2%positive = None
      ∧ destroy 2 h' !! q = Some (WriteOptionsDaos sample_WriteOptionsDaos).
Proof.
  split; [ reflexivity | ].
  apply (Clone_destroy sample_store 2 sample_WriteOptionsDaos). reflexivity.
Defined.

(** X10: two clones of one [RNTupleWriteOptionsDaos] are two objects: their
    addresses differ from each other and from the original's, each holds the
    original's values, and whatever is done to one of the three leaves the
    other two as they are. *)
Theorem Clone_twice (h : gmap positive object) (p : positive)
    (d : RNTupleWriteOptionsDaos.t) :
  h !! p = Some (WriteOptionsDaos d) →
  ∃ (q1 q2 : positive) (h1 h2 : gmap positive object),
    Clone p h = Some (q1, h1)
    ∧ Clone p h1 = Some (q2, h2)
    ∧ q1 ≠ p ∧ q2 ≠ p ∧ q1 ≠ q2
    ∧ h2 !! p = Some (WriteOptionsDaos d)
    ∧ h2 !! q1 = Some (WriteOptionsDaos d)
    ∧ h2 !! q2 = Some (WriteOptionsDaos d)
    ∧ ∀ (r : positive) (f : object → object),
        (r ≠ p → mutate r f h2 !! p = Some (WriteOptionsDaos d))
        ∧ (r ≠ q1 → mutate r f h2 !! q1 = Some (WriteOptionsDaos d))
        ∧ (r ≠ q2 → mutate r f h2 !! q2 = Some (WriteOptionsDaos d)).
Proof.
  intros Hp.
  destruct (Clone_daos_insert h p d Hp) as (q1 & Hc1 & Hq1).
  assert (Hq1p : q1 ≠ p) by (intros ->; congruence).
  set (h1 := <[q1 := WriteOptionsDaos d]> h) in *.
  assert (Hp1 : h1 !! p = Some (WriteOptionsDaos d)).
  { subst h1. by rewrite lookup_insert_ne. }
  assert (Hq11 : h1 !! q1 = Some (WriteOptionsDaos d)) by apply lookup_insert_eq.
  destruct (Clone_daos_insert h1 p d Hp1) as (q2 & Hc2 & Hq2).
  assert (Hq2p : q2 ≠ p) by (intros ->; congruence).
  assert (Hq12 : q1 ≠ q2) by (intros ->; congruence).
  set (h2 := <[q2 := WriteOptionsDaos d]> h1) in *.
  assert (H2p : h2 !! p = Some (WriteOptionsDaos d)).
  { subst h2. by rewrite lookup_insert_ne. }
  assert (H2q1 : h2 !! q1 = Some (WriteOptionsDaos d)).
  { subst h2. by rewrite lookup_insert_ne. }
  assert (H2q2 : h2 !! q2 = Some (WriteOptionsDaos d)) by apply lookup_insert_eq.
  exists q1, q2, h1, h2.
  repeat split; try done; intros Hr; by rewrite mutate_frame.
Qed.

Lemma Clone_twice_sample :
  sample_store !! 2%positive = Some (WriteOptionsDaos sample_WriteOptionsDaos)
  ∧ ∃ (q1 q2 : positive) (h1 h2 : gmap positive object),
      Clone 2 sample_store = Some (q1, h1)
      ∧ Clone 2 h1 = Some (q2, h2)
      ∧ q1 ≠ 2%positive ∧ q2 ≠ 2%positive ∧ q1 ≠ q2
      ∧ h2 !! 2%positive = Some (WriteOptionsDaos sample_WriteOptionsDaos)
      ∧ h2 !! q1 = Some (WriteOptionsDaos sample_WriteOptionsDaos)
      ∧ h2 !! q2 = Some (WriteOptionsDaos sample_WriteOptionsDaos)
      ∧ ∀ (r : positive) (f : object → object),
          (r ≠ 2%positive →
           mutate r f h2 !! 2%positive = Some (WriteOptionsDaos sample_WriteOptionsDaos))
          ∧ (r ≠ q1 → mutate r f h2 !! q1 = Some (WriteOptionsDaos sample_WriteOptionsDaos))
          ∧ (r ≠ q2 → mutate r f h2 !! q2 = Some (WriteOptionsDaos sample_WriteOptionsDaos)).
Proof.
  split; [ reflexivity | ].
  apply (Clone_twice sample_store 2 sample_WriteOptionsDaos). reflexivity.
Defined.

(** X11: [Clone] copies the state the object has when it is called, not the
    state it was constructed with: after any calls of member functions of
    [RNTupleWriteOptionsDaos] on a clone, a clone of that clone has the values
    those calls left, the cage size included, and the original still has its
    own. *)
Theorem Clone_of_changed_clone (h : gmap positive object) (p : positive)
    (d : RNTupleWriteOptionsDaos.t)
    (g : RNTupleWriteOptionsDaos.t → RNTupleWriteOptionsDaos.t) :
  h !! p = Some (WriteOptionsDaos d) →
  ∃ (q1 q2 : positive) (h1 h2 : gmap positive object),
    Clone p h = Some (q1, h1)
    ∧ Clone q1 (mutate q1 (on_daos g) h1) = Some (q2, h2)
    ∧ q1 ≠ p ∧ q2 ≠ p ∧ q1 ≠ q2
    ∧ h2 !! p = Some (WriteOptionsDaos d)
    ∧ h2 !! q1 = Some (WriteOptionsDaos (g d))
    ∧ h2 !! q2 = Some (WriteOptionsDaos (g d)).
Proof.
  intros Hp.
  destruct (Clone_daos_insert h p d Hp) as (q1 & Hc1 & Hq1).
  assert (Hq1p : q1 ≠ p) by (intros ->; congruence).
  set (h1 := <[q1 := WriteOptionsDaos d]> h) in *.
  set (h1' := mutate q1 (on_daos g) h1).
  assert (Hp1 : h1' !! p = Some (WriteOptionsDaos d)).
  { subst h1' h1. rewrite mutate_frame by (by apply not_eq_sym). by rewrite lookup_insert_ne. }
  assert (Hq11 : h1' !! q1 = Some (WriteOptionsDaos (g d))).
  { subst h1' h1. unfold mutate. by rewrite lookup_alter_eq, lookup_insert_eq. }
  destruct (Clone_daos_insert h1' q1 (g d) Hq11) as (q2 & Hc2 & Hq2).
  assert (Hq2p : q2 ≠ p) by (intros ->; congruence).
  assert (Hq12 : q1 ≠ q2) by (intros ->; congruence).
  exists q1, q2, h1, (<[q2 := WriteOptionsDaos (g d)]> h1').
  repeat split; try done.
  - by rewrite lookup_insert_ne.
  - by rewrite lookup_insert_ne.
  - apply lookup_insert_eq.
Qed.

Lemma Clone_of_changed_clone_sample :
  sample_store !! 2%positive = Some (WriteOptionsDaos sample_WriteOptionsDaos)
  ∧ ∃ (q1 q2 : positive) (h1 h2 : gmap positive object),
      Clone 2 sample_store = Some (q1, h1)
      ∧ Clone q1 (mutate q1 (on_daos (RNTupleWriteOptionsDaos.SetMaxCageSize 0)) h1)
        = Some (q2, h2)
      ∧ q1 ≠ 2%positive ∧ q2 ≠ 2%positive ∧ q1 ≠ q2
      ∧ h2 !! 2%positive = Some (WriteOptionsDaos sample_WriteOptionsDaos)
      ∧ h2 !! q1
        = Some (WriteOptionsDaos
                  (RNTupleWriteOptionsDaos.SetMaxCageSize 0 sample_WriteOptionsDaos))
      ∧ h2 !! q2
        = Some (WriteOptionsDaos
                  (RNTupleWriteOptionsDaos.SetMaxCageSize 0 sample_WriteOptionsDaos)).
Proof.
  split; [ reflexivity | ].
  apply (Clone_of_changed_clone sample_store 2 sample_WriteOptionsDaos
           (RNTupleWriteOptionsDaos.SetMaxCageSize 0)).
  reflexivity.
Defined.
